(** * hikari: application-command interactions and the legacy guild member

    A shallow embedding of [hikari/interactions/commands.py] and of the legacy
    [hikari.orm] member entity exercised by [tests/hikari/orm/models/test_members.py].

    The command layer is a thin forwarding layer: every method either calls a
    collaborator reached through [self.app] (the REST client, the cache) or
    returns at once.  A method is therefore embedded as a small program tree
    whose nodes are the collaborator calls the Python body performs, in order;
    running a tree against the collaborators' behaviour yields the outcome of
    the method together with the list of calls that were made, which is what
    the repository's mock based tests observe. *)

From Stdlib Require Import ZArith Ascii String List Bool Lia.
From stdpp Require Import base option list strings gmap.

Local Open Scope Z_scope.

Set Warnings "-register-all".

(** ** hikari.undefined and hikari.snowflakes *)

(** [undefined.UNDEFINED] is a singleton distinct from [None].  An argument
    handed to the REST client is, at run time, [UNDEFINED], [None] or a value. *)
Inductive UndefinedNoneOr (T : Type) : Type :=
| UNDEFINED
| NONE
| Value (v : T).

Arguments UNDEFINED {T}.
Arguments NONE {T}.
Arguments Value {T} v.

(** [class Snowflake(int)]: a Python integer. *)
Abbreviation Snowflake := Z.

(** [bool(x)] for [x : Optional[Snowflake]]: [None] and [0] are falsy. *)
Definition truthy (x : option Snowflake) : bool :=
  match x with
  | None => false
  | Some v => negb (Z.eqb v 0)
  end.

(** ** Classes of modules that are not part of this development

    [hikari.users], [hikari.guilds], [hikari.channels], [hikari.permissions],
    [hikari.interactions.bases] and [hikari.api.special_endpoints] are only
    imported by [commands.py]; their objects are opaque here, and the
    [isinstance] tests on channels are taken as given. *)
Class HikariObjects : Type := {
  User : Type;
  InteractionMember : Type;
  Role : Type;
  Permissions : Type;
  PartialChannel : Type;
  RESTGuild : Type;
  GatewayGuild : Type;
  InteractionMessageBuilder : Type;
  InteractionDeferredBuilder : Type;
  (** a channel object as the REST client or the cache hands it out *)
  Channel : Type;
  isinstance_TextChannel : Channel -> bool;
  isinstance_GuildTextChannel : Channel -> bool;
  isinstance_GuildNewsChannel : Channel -> bool
}.

(** ** hikari.traits

    [self.app] is [RESTAware]; whether it is also [CacheAware] is what
    [isinstance(self.app, traits.CacheAware)] asks. *)
Record App : Type := {
  isinstance_CacheAware : bool
}.

(** ** hikari.interactions.bases.ResponseType *)

(** Modelled from the spec: [bases.ResponseType] is not under src; the two
    members used here carry the wire values 4 and 5, as the documentation of
    [CommandResponseTypesT] in [commands.py] also says. *)
Module ResponseType.
Definition MESSAGE_CREATE : Z := 4.
Definition DEFERRED_MESSAGE_CREATE : Z := 5.
End ResponseType.

(** [COMMAND_RESPONSE_TYPES = frozenset([MESSAGE_CREATE, DEFERRED_MESSAGE_CREATE])] *)
Definition COMMAND_RESPONSE_TYPES : gset Z :=
  list_to_set [ResponseType.MESSAGE_CREATE; ResponseType.DEFERRED_MESSAGE_CREATE].

(** ** OptionType *)

Inductive OptionType : Type :=
| SUB_COMMAND
| SUB_COMMAND_GROUP
| STRING
| INTEGER
| BOOLEAN
| USER
| CHANNEL
| ROLE
| MENTIONABLE.

(** [class OptionType(int, enums.Enum)]: each member is the integer it names. *)
Definition OptionType_value (t : OptionType) : Z :=
  match t with
  | SUB_COMMAND => 1
  | SUB_COMMAND_GROUP => 2
  | STRING => 3
  | INTEGER => 4
  | BOOLEAN => 5
  | USER => 6
  | CHANNEL => 7
  | ROLE => 8
  | MENTIONABLE => 9
  end.

Coercion OptionType_value : OptionType >-> Z.

(** ** CommandChoice, CommandOption *)

(** [typing.Union[str, int]] *)
Inductive ChoiceValue : Type :=
| ChoiceStr (s : string)
| ChoiceInt (i : Z).

Module CommandChoice.
Record t : Type := {
  name : string;
  value : ChoiceValue
}.
End CommandChoice.

Module CommandOption.
(** [type] is [typing.Union[OptionType, int]]: any integer. *)
Inductive t : Type := make {
  type : Z;
  name : string;
  description : string;
  is_required : bool;
  choices : option (list CommandChoice.t);
  options : option (list t)
}.
End CommandOption.

(** ** Exceptions *)

(** The errors the REST client raises, as the docstrings list them. *)
Inductive HikariError : Type :=
| ForbiddenError
| NotFoundError
| UnauthorizedError
| BadRequestError
| RateLimitTooLongError
| RateLimitedError
| InternalServerError.

Inductive Exception : Type :=
| AssertionError
| KeyError (key : string)
| ValueError
| RESTError (e : HikariError).

Inductive Outcome (A : Type) : Type :=
| Returned (a : A)
| Raised (e : Exception).

Arguments Returned {A} a.
Arguments Raised {A} e.

(** ** Command *)

Module Command.
Record t : Type := {
  app : App;
  id : Snowflake;
  application_id : Snowflake;
  name : string;
  description : string;
  options : option (list CommandOption.t);
  guild_id : option Snowflake
}.
End Command.

(** ** InteractionChannel, ResolvedOptionData *)

Module InteractionChannel.
(** [class InteractionChannel(channels.PartialChannel)]: the inherited part
    and the one field the subclass adds. *)
Record t `{HikariObjects} : Type := {
  partial_channel : PartialChannel;
  permissions : Permissions
}.
End InteractionChannel.

Module ResolvedOptionData.
Record t `{HikariObjects} : Type := {
  users : gmap Snowflake User;
  members : gmap Snowflake InteractionMember;
  roles : gmap Snowflake Role;
  channels : gmap Snowflake InteractionChannel.t
}.
End ResolvedOptionData.

(** ** CommandInteractionOption *)

(** [typing.Union[str, int, bool]] *)
Inductive OptionValue : Type :=
| ValueStr (s : string)
| ValueInt (i : Z)
| ValueBool (b : bool).

Module CommandInteractionOption.
(** An [attr.define] class with four plain fields; [value] and [options] are
    both [typing.Optional] and the class has no validator. *)
Inductive t : Type := make {
  name : string;
  type : Z;
  value : option (list OptionValue);
  options : option (list t)
}.
End CommandInteractionOption.

(** [field is not None] *)
Definition populated {A : Type} (field : option A) : bool :=
  match field with
  | Some _ => true
  | None => false
  end.

Definition is_sub_command_type (type : Z) : bool :=
  Z.eqb type SUB_COMMAND || Z.eqb type SUB_COMMAND_GROUP.

(** The exclusivity the docstrings of [value] and [options] describe:
    [options] alone on a sub command or group, [value] alone elsewhere. *)
Definition exactly_one_populated (node : CommandInteractionOption.t) : bool :=
  if is_sub_command_type (CommandInteractionOption.type node) then
    populated (CommandInteractionOption.options node)
    && negb (populated (CommandInteractionOption.value node))
  else
    populated (CommandInteractionOption.value node)
    && negb (populated (CommandInteractionOption.options node)).

(** ** CommandInteraction *)

Module CommandInteraction.
(** The first six fields are inherited from [bases.MessageResponseMixin]
    (they are the keywords the test fixture passes besides the class's own). *)
Record t `{HikariObjects} : Type := {
  app : App;
  id : Snowflake;
  application_id : Snowflake;
  type : Z;
  token : string;
  version : Z;
  channel_id : Snowflake;
  guild_id : option Snowflake;
  member : option InteractionMember;
  user : User;
  command_id : Snowflake;
  command_name : string;
  options : option (list CommandInteractionOption.t);
  resolved : option ResolvedOptionData.t
}.
End CommandInteraction.

(** ** Calls on the collaborators of [self.app]

    One constructor per method of [self.app.rest] and [self.app.cache] that
    [commands.py] calls, with the arguments the call site passes; the index
    is the type of what the collaborator returns. *)
Inductive Call `{HikariObjects} : Type -> Type :=
| rest_fetch_application_command
    (application command : Snowflake) (guild : UndefinedNoneOr Snowflake) : Call Command.t
| rest_edit_application_command
    (application command : Snowflake) (guild : UndefinedNoneOr Snowflake)
    (name description : UndefinedNoneOr string)
    (options : UndefinedNoneOr (list CommandOption.t)) : Call Command.t
| rest_delete_application_command
    (application command : Snowflake) (guild : UndefinedNoneOr Snowflake) : Call unit
| rest_fetch_channel (channel : Snowflake) : Call Channel
| rest_fetch_guild (guild : Snowflake) : Call RESTGuild
| rest_interaction_message_builder (type : Z) : Call InteractionMessageBuilder
| rest_interaction_deferred_builder (type : Z) : Call InteractionDeferredBuilder
| cache_get_guild_channel (channel : Snowflake) : Call (option Channel)
| cache_get_guild (guild : Snowflake) : Call (option GatewayGuild).

(** A call as a mock records it. *)
Inductive Logged `{HikariObjects} : Type :=
| Log {X : Type} (c : Call X).

(** Calls on [self.app.rest] go to the network; calls on [self.app.cache] do not. *)
Definition is_rest_call `{HikariObjects} (l : Logged) : bool :=
  match l with
  | Log c =>
      match c with
      | cache_get_guild_channel _ | cache_get_guild _ => false
      | _ => true
      end
  end.

Definition is_cache_call `{HikariObjects} (l : Logged) : bool :=
  negb (is_rest_call l).

(** ** Method bodies as program trees *)

Inductive Prog `{HikariObjects} (A : Type) : Type :=
| Return (a : A)
| Assert (cond : bool) (k : Prog A)
| Invoke {X : Type} (c : Call X) (k : X -> Prog A).

Arguments Return {_ A} a.
Arguments Assert {_ A} cond k.
Arguments Invoke {_ A X} c k.

(** What the collaborators answer to a call, given the calls made so far:
    they return a value or raise. *)
Definition Collaborators `{HikariObjects} : Type :=
  list Logged -> forall X : Type, Call X -> Outcome X.

(** Runs a method body.  [debug] is Python's [__debug__]: an [assert] is only
    checked when it is set (the default).  The result pairs the outcome with
    the log of calls, oldest first. *)
Fixpoint run `{HikariObjects} {A : Type} (debug : bool) (world : Collaborators)
    (p : Prog A) (log : list Logged) : Outcome A * list Logged :=
  match p with
  | Return a => (Returned a, log)
  | Assert cond k =>
      if debug && negb cond then (Raised AssertionError, log)
      else run debug world k log
  | Invoke c k =>
      match world log _ c with
      | Returned x => run debug world (k x) (log ++ [Log c])
      | Raised e => (Raised e, log ++ [Log c])
      end
  end.

(** The outcome of awaiting a single call and returning its result as it is. *)
Definition forwarded `{HikariObjects} {X : Type} (world : Collaborators)
    (c : Call X) (log : list Logged) : Outcome X * list Logged :=
  (world log X c, log ++ [Log c]).

(** ** Methods of [Command] *)

(** [undefined.UNDEFINED if self.guild_id is None else self.guild_id] *)
Definition UNDEFINED_if_None (guild_id : option Snowflake) : UndefinedNoneOr Snowflake :=
  match guild_id with
  | None => UNDEFINED
  | Some g => Value g
  end.

Definition fetch_self `{HikariObjects} (self : Command.t) : Prog Command.t :=
  Invoke
    (rest_fetch_application_command
       (Command.application_id self) (Command.id self)
       (UNDEFINED_if_None (Command.guild_id self)))
    Return.

(** The three parameters are keyword-only with the default
    [undefined.UNDEFINED]: [None] here stands for a keyword the caller left out. *)
Definition edit `{HikariObjects} (self : Command.t)
    (name description : option (UndefinedNoneOr string))
    (options : option (UndefinedNoneOr (list CommandOption.t))) : Prog Command.t :=
  let name := default UNDEFINED name in
  let description := default UNDEFINED description in
  let options := default UNDEFINED options in
  Invoke
    (rest_edit_application_command
       (Command.application_id self) (Command.id self)
       (UNDEFINED_if_None (Command.guild_id self))
       name description options)
    Return.

Definition delete `{HikariObjects} (self : Command.t) : Prog unit :=
  Invoke
    (rest_delete_application_command
       (Command.application_id self) (Command.id self)
       (UNDEFINED_if_None (Command.guild_id self)))
    (fun _ => Return tt).

(** ** Methods of [CommandInteraction] *)

Definition build_response `{HikariObjects} (self : CommandInteraction.t)
    : Prog InteractionMessageBuilder :=
  Invoke (rest_interaction_message_builder ResponseType.MESSAGE_CREATE) Return.

Definition build_deferred_response `{HikariObjects} (self : CommandInteraction.t)
    : Prog InteractionDeferredBuilder :=
  Invoke (rest_interaction_deferred_builder ResponseType.DEFERRED_MESSAGE_CREATE) Return.

Definition fetch_channel `{HikariObjects} (self : CommandInteraction.t) : Prog Channel :=
  Invoke (rest_fetch_channel (CommandInteraction.channel_id self))
    (fun channel =>
       Assert (isinstance_TextChannel channel)
         (Return channel)).

(** [isinstance(channel, (channels.GuildTextChannel, channels.GuildNewsChannel))]
    for what the cache returned; [None] is an instance of neither. *)
Definition isinstance_guild_text_or_news `{HikariObjects} (channel : option Channel) : bool :=
  match channel with
  | None => false
  | Some c => isinstance_GuildTextChannel c || isinstance_GuildNewsChannel c
  end.

Definition get_channel `{HikariObjects} (self : CommandInteraction.t)
    : Prog (option Channel) :=
  if isinstance_CacheAware (CommandInteraction.app self) then
    Invoke (cache_get_guild_channel (CommandInteraction.channel_id self))
      (fun channel =>
         Assert (isinstance_guild_text_or_news channel)
           (Return channel))
  else Return None.

(** [self.guild_id or undefined.UNDEFINED]: the left operand when it is
    truthy, else the right one. *)
Definition or_UNDEFINED (guild_id : option Snowflake) : UndefinedNoneOr Snowflake :=
  if truthy guild_id then
    match guild_id with
    | Some g => Value g
    | None => NONE
    end
  else UNDEFINED.

Definition fetch_command `{HikariObjects} (self : CommandInteraction.t) : Prog Command.t :=
  Invoke
    (rest_fetch_application_command
       (CommandInteraction.application_id self)
       (CommandInteraction.id self)
       (or_UNDEFINED (CommandInteraction.guild_id self)))
    Return.

Definition fetch_guild `{HikariObjects} (self : CommandInteraction.t)
    : Prog (option RESTGuild) :=
  if negb (truthy (CommandInteraction.guild_id self)) then Return None
  else
    match CommandInteraction.guild_id self with
    | Some g => Invoke (rest_fetch_guild g) (fun guild => Return (Some guild))
    | None => Return None
    end.

Definition get_guild `{HikariObjects} (self : CommandInteraction.t)
    : Prog (option GatewayGuild) :=
  if truthy (CommandInteraction.guild_id self)
     && isinstance_CacheAware (CommandInteraction.app self)
  then
    match CommandInteraction.guild_id self with
    | Some g => Invoke (cache_get_guild g) Return
    | None => Return None
    end
  else Return None.

(** ** The legacy guild member ([hikari.orm.models.members])

    Only the test module of the legacy entity is part of this development;
    the entity is modelled from the specification, and the tests are embedded
    as they are written, as checks on a constructor. *)

(** Classes of [hikari.orm] that the member refers to, and the ISO-8601
    parser it calls; a string the parser rejects is a malformed timestamp. *)
Class OrmObjects : Type := {
  OrmUser : Type;
  OrmRole : Type;
  OrmGuild : Type;
  datetime : Type;
  parse_iso_8601_ts : string -> option datetime
}.

(** A raw payload value: JSON data, or an object that is already resolved. *)
Inductive Raw `{OrmObjects} : Type :=
| RawNone
| RawBool (b : bool)
| RawInt (i : Z)
| RawStr (s : string)
| RawList (l : list Raw)
| RawDict (d : gmap string Raw)
| RawObject (u : OrmUser).

(** Modelled from the spec: [state_registry.IStateRegistry] is not under
    src.  It exposes [parse_user(raw_or_object)], [get_guild_by_id(id)] and
    the role lookup by raw id. *)
Record IStateRegistry `{OrmObjects} : Type := {
  parse_user : Raw -> OrmUser;
  get_role_by_id : Raw -> OrmRole;
  get_guild_by_id : Raw -> option OrmGuild
}.

(** Modelled from the spec: [fabric.Fabric] is not under src; the shared
    context that carries the state registry. *)
Record Fabric `{OrmObjects} : Type := {
  state_registry : IStateRegistry
}.

Module Member.
(** Modelled from the spec: [members.Member] is not under src; its fields
    are those of section 3, [deaf] and [mute] are not kept. *)
Record t `{OrmObjects} : Type := {
  nick : option string;
  roles : list OrmRole;
  joined_at : datetime;
  premium_since : option datetime;
  user : OrmUser;
  guild : OrmGuild
}.
End Member.

Definition bind_outcome {A B : Type} (m : Outcome A) (f : A -> Outcome B) : Outcome B :=
  match m with
  | Returned a => f a
  | Raised e => Raised e
  end.

#[export] Instance Outcome_bind : MBind Outcome :=
  fun A B f m => bind_outcome m f.

(** [payload[key]]: a missing key raises [KeyError]. *)
Definition subscript `{OrmObjects} (payload : gmap string Raw) (key : string) : Outcome Raw :=
  match payload !! key with
  | Some v => Returned v
  | None => Raised (KeyError key)
  end.

(** Parses a raw timestamp; anything but a string the parser accepts is an
    invalid format. *)
Definition parse_timestamp `{OrmObjects} (raw : Raw) : Outcome datetime :=
  match raw with
  | RawStr s =>
      match parse_iso_8601_ts s with
      | Some ts => Returned ts
      | None => Raised ValueError
      end
  | _ => Raised ValueError
  end.

(** Resolves each raw role id through the registry, in order. *)
Definition resolve_roles `{OrmObjects} (registry : IStateRegistry) (raw : Raw)
    : Outcome (list OrmRole) :=
  match raw with
  | RawList ids => Returned (map (get_role_by_id registry) ids)
  | _ => Raised ValueError
  end.

Definition as_str `{OrmObjects} (raw : option Raw) : option string :=
  match raw with
  | Some (RawStr s) => Some s
  | _ => None
  end.

(** Modelled from the spec: [members.Member.__init__] is not under src.
    Construction as sections 3 and 4.7 describe it, with the reading of the
    [roles] key left as the parameter [raw_roles]: section 7 makes the key
    required, while the tests build members from payloads without it. *)
Definition construct_member `{OrmObjects}
    (raw_roles : gmap string Raw -> Outcome Raw)
    (fabric : Fabric) (guild : OrmGuild) (payload : gmap string Raw)
    : Outcome Member.t :=
  let registry := state_registry fabric in
  let nick := as_str (payload !! "nick") in
  raw ← raw_roles payload;
  roles ← resolve_roles registry raw;
  raw ← subscript payload "joined_at";
  joined_at ← parse_timestamp raw;
  premium_since ←
    match payload !! "premium_since" with
    | None => Returned None
    | Some raw => ts ← parse_timestamp raw; Returned (Some ts)
    end;
  raw ← subscript payload "user";
  Returned
    {| Member.nick := nick;
       Member.roles := roles;
       Member.joined_at := joined_at;
       Member.premium_since := premium_since;
       Member.user := parse_user registry raw;
       Member.guild := guild |}.

(** Modelled from the spec: [members.Member.__init__] is not under src.
    This is construction to the letter of sections 4.7 and 7: [roles],
    [joined_at] and [user] are required keys, [nick] and [premium_since]
    are optional. *)
Definition Member_as_specified `{OrmObjects} :=
  construct_member (fun payload => subscript payload "roles").

(** Modelled from the spec: [members.Member.update_state] is not under
    src.  It replaces [roles] and [nick]; the member is mutated in place,
    which is rendered by returning the member after the call. *)
Definition update_state `{OrmObjects} (self : Member.t)
    (role_objs : list OrmRole) (nick : option string) : Member.t :=
  {| Member.nick := nick;
     Member.roles := role_objs;
     Member.joined_at := Member.joined_at self;
     Member.premium_since := Member.premium_since self;
     Member.user := Member.user self;
     Member.guild := Member.guild self |}.

(** ** Fixtures of [tests/hikari/interactions/test_commands.py] *)

(** A [mock.Mock(cls)] of a channel class passes [isinstance] for [cls] and
    its bases. *)
Inductive MockChannel : Type :=
| Mock_DMChannel
| Mock_GuildTextChannel
| Mock_GuildNewsChannel
| Mock_GuildVoiceChannel.

#[export] Instance mock_objects : HikariObjects := {|
  User := string;
  InteractionMember := string;
  Role := string;
  Permissions := Z;
  PartialChannel := string;
  RESTGuild := string;
  GatewayGuild := string;
  InteractionMessageBuilder := string;
  InteractionDeferredBuilder := string;
  Channel := MockChannel;
  isinstance_TextChannel c :=
    match c with
    | Mock_DMChannel | Mock_GuildTextChannel | Mock_GuildNewsChannel => true
    | Mock_GuildVoiceChannel => false
    end;
  isinstance_GuildTextChannel c :=
    match c with
    | Mock_GuildTextChannel => true
    | _ => false
    end;
  isinstance_GuildNewsChannel c :=
    match c with
    | Mock_GuildNewsChannel => true
    | _ => false
    end
|}.

(** [mock.Mock(traits.CacheAware, rest=mock.AsyncMock())] *)
Definition mock_app : App := {| isinstance_CacheAware := true |}.

(** [mock.Mock(traits.RESTAware)] *)
Definition mock_rest_only_app : App := {| isinstance_CacheAware := false |}.

Definition mock_command : Command.t := {|
  Command.app := mock_app;
  Command.id := 34123123;
  Command.application_id := 65234123;
  Command.name := "Name";
  Command.description := "very descript";
  Command.options := Some [];
  Command.guild_id := Some 31231235
|}.

Definition mock_command_interaction : CommandInteraction.t := {|
  CommandInteraction.app := mock_app;
  CommandInteraction.id := 2312312;
  CommandInteraction.type := 2;
  CommandInteraction.channel_id := 3123123;
  CommandInteraction.guild_id := Some 5412231;
  CommandInteraction.member := Some "member";
  CommandInteraction.user := "user";
  CommandInteraction.token := "httptptptptptptptp";
  CommandInteraction.version := 1;
  CommandInteraction.application_id := 43123;
  CommandInteraction.command_id := 3123123;
  CommandInteraction.command_name := "OKOKOK";
  CommandInteraction.options := Some [];
  CommandInteraction.resolved := None
|}.

(** The fixture with [guild_id] and [app] reassigned, as the tests do. *)
Definition with_guild_id (guild_id : option Snowflake) (i : CommandInteraction.t)
    : CommandInteraction.t := {|
  CommandInteraction.app := CommandInteraction.app i;
  CommandInteraction.id := CommandInteraction.id i;
  CommandInteraction.type := CommandInteraction.type i;
  CommandInteraction.channel_id := CommandInteraction.channel_id i;
  CommandInteraction.guild_id := guild_id;
  CommandInteraction.member := CommandInteraction.member i;
  CommandInteraction.user := CommandInteraction.user i;
  CommandInteraction.token := CommandInteraction.token i;
  CommandInteraction.version := CommandInteraction.version i;
  CommandInteraction.application_id := CommandInteraction.application_id i;
  CommandInteraction.command_id := CommandInteraction.command_id i;
  CommandInteraction.command_name := CommandInteraction.command_name i;
  CommandInteraction.options := CommandInteraction.options i;
  CommandInteraction.resolved := CommandInteraction.resolved i
|}.

Definition with_app (app : App) (i : CommandInteraction.t) : CommandInteraction.t := {|
  CommandInteraction.app := app;
  CommandInteraction.id := CommandInteraction.id i;
  CommandInteraction.type := CommandInteraction.type i;
  CommandInteraction.channel_id := CommandInteraction.channel_id i;
  CommandInteraction.guild_id := CommandInteraction.guild_id i;
  CommandInteraction.member := CommandInteraction.member i;
  CommandInteraction.user := CommandInteraction.user i;
  CommandInteraction.token := CommandInteraction.token i;
  CommandInteraction.version := CommandInteraction.version i;
  CommandInteraction.application_id := CommandInteraction.application_id i;
  CommandInteraction.command_id := CommandInteraction.command_id i;
  CommandInteraction.command_name := CommandInteraction.command_name i;
  CommandInteraction.options := CommandInteraction.options i;
  CommandInteraction.resolved := CommandInteraction.resolved i
|}.

Definition command_with_guild_id (guild_id : option Snowflake) (c : Command.t) : Command.t := {|
  Command.app := Command.app c;
  Command.id := Command.id c;
  Command.application_id := Command.application_id c;
  Command.name := Command.name c;
  Command.description := Command.description c;
  Command.options := Command.options c;
  Command.guild_id := guild_id
|}.

(** The command a mocked REST client hands back ([return_value]). *)
Definition return_value_command : Command.t := {|
  Command.app := mock_app;
  Command.id := 1;
  Command.application_id := 1;
  Command.name := "return_value";
  Command.description := "return_value";
  Command.options := None;
  Command.guild_id := None
|}.

(** Mocked collaborators: every method returns its [return_value];
    [get_guild_channel_return] is what the test put in
    [mock_app.cache.get_guild_channel.return_value]. *)
Definition mock_world (get_guild_channel_return : option MockChannel) : Collaborators :=
  fun _ X c =>
    match c in Call X return Outcome X with
    | rest_fetch_application_command _ _ _ => Returned return_value_command
    | rest_edit_application_command _ _ _ _ _ _ => Returned return_value_command
    | rest_delete_application_command _ _ _ => Returned tt
    | rest_fetch_channel _ => Returned Mock_GuildTextChannel
    | rest_fetch_guild _ => Returned "fetch_guild.return_value"
    | rest_interaction_message_builder _ =>
        Returned "interaction_message_builder.return_value"
    | rest_interaction_deferred_builder _ =>
        Returned "interaction_deferred_builder.return_value"
    | cache_get_guild_channel _ => Returned get_guild_channel_return
    | cache_get_guild _ => Returned (Some "get_guild.return_value")
    end.

(** ** Fixtures and tests of [tests/hikari/orm/models/test_members.py] *)

(** [datetime.datetime] with a fixed UTC offset, in minutes. *)
Record mock_datetime : Type := {
  year : Z;
  month : Z;
  day : Z;
  hour : Z;
  minute : Z;
  second : Z;
  microsecond : Z;
  utcoffset : Z
}.

#[export] Instance mock_datetime_eq_dec : EqDecision mock_datetime.
Proof. solve_decision. Defined.

Definition digit (c : ascii) : option Z :=
  let n := Z.of_N (N_of_ascii c) in
  if (48 <=? n) && (n <=? 57) then Some (n - 48) else None.

Fixpoint digits (acc : Z) (n : nat) (cs : list ascii) : option (Z * list ascii) :=
  match n with
  | O => Some (acc, cs)
  | S n =>
      match cs with
      | c :: cs => d ← digit c; digits (10 * acc + d) n cs
      | [] => None
      end
  end.

Definition expect (c : ascii) (cs : list ascii) : option (list ascii) :=
  match cs with
  | c' :: cs => if bool_decide (c = c') then Some cs else None
  | [] => None
  end.

Definition sign (cs : list ascii) : option (Z * list ascii) :=
  match cs with
  | c :: cs =>
      if bool_decide (c = "+"%char) then Some (1, cs)
      else if bool_decide (c = "-"%char) then Some (-1, cs)
      else None
  | [] => None
  end.

(** The test fixtures' timestamp parser: the layout
    [YYYY-MM-DDTHH:MM:SS.ffffff+HH:MM] of the timestamps in the tests. *)
Definition mock_parse_iso_8601_ts (s : string) : option mock_datetime :=
  '(Y, cs) ← digits 0 4 (list_ascii_of_string s);
  cs ← expect "-" cs;
  '(M, cs) ← digits 0 2 cs;
  cs ← expect "-" cs;
  '(D, cs) ← digits 0 2 cs;
  cs ← expect "T" cs;
  '(h, cs) ← digits 0 2 cs;
  cs ← expect ":" cs;
  '(m, cs) ← digits 0 2 cs;
  cs ← expect ":" cs;
  '(sec, cs) ← digits 0 2 cs;
  cs ← expect "." cs;
  '(us, cs) ← digits 0 6 cs;
  '(sg, cs) ← sign cs;
  '(oh, cs) ← digits 0 2 cs;
  cs ← expect ":" cs;
  '(om, cs) ← digits 0 2 cs;
  match cs with
  | [] =>
      if (1 <=? M) && (M <=? 12) && (1 <=? D) && (D <=? 31)
         && (h <=? 23) && (m <=? 59) && (sec <=? 59) && (oh <=? 23) && (om <=? 59)
      then Some {| year := Y; month := M; day := D; hour := h; minute := m;
                   second := sec; microsecond := us;
                   utcoffset := sg * (60 * oh + om) |}
      else None
  | _ => None
  end.

(** Mock objects are told apart by name. *)
#[export] Instance mock_orm_objects : OrmObjects := {|
  OrmUser := string;
  OrmRole := string;
  OrmGuild := string;
  datetime := mock_datetime;
  parse_iso_8601_ts := mock_parse_iso_8601_ts
|}.

(** [mock.MagicMock(spec_set=state_registry.IStateRegistry)]: every method
    returns a fresh mock unless the test sets a return value. *)
Definition mock_state_registry : IStateRegistry := {|
  parse_user := fun _ => "parse_user.return_value";
  get_role_by_id := fun _ => "role";
  get_guild_by_id := fun _ => Some "get_guild_by_id.return_value"
|}.

(** [fabric.Fabric(state_registry=mock_state_registry)] *)
Definition fabric_obj : Fabric := {| state_registry := mock_state_registry |}.

(** The type of [members.Member(fabric_obj, guild, payload)]. *)
Definition MemberConstructor : Type :=
  Fabric -> OrmGuild -> gmap string Raw -> Outcome Member.t.

Definition user_dict : gmap string Raw :=
  <["id" := RawStr "123456"]>
  (<["username" := RawStr "Boris Johnson"]>
  (<["discriminator" := RawStr "6969"]>
  (<["avatar" := RawStr "1a2b3c4d"]> ∅))).

Definition role_ids : Raw :=
  RawList [RawStr "11111"; RawStr "22222"; RawStr "33333"; RawStr "44444"].

Definition payload_with_filled_fields : gmap string Raw :=
  <["nick" := RawStr "foobarbaz"]>
  (<["roles" := role_ids]>
  (<["joined_at" := RawStr "2015-04-26T06:26:56.936000+00:00"]>
  (<["premium_since" := RawStr "2019-05-17T06:26:56.936000+00:00"]>
  (<["deaf" := RawBool false]>
  (<["mute" := RawBool true]>
  (<["user" := RawDict
       (<["locale" := RawStr "gb"]>
       (<["flags" := RawInt 45]>
       (<["premium_type" := RawInt 109]> user_dict)))]> ∅)))))).

Definition payload_with_no_optional_fields : gmap string Raw :=
  <["roles" := role_ids]>
  (<["joined_at" := RawStr "2015-04-26T06:26:56.936000+00:00"]>
  (<["user" := RawDict user_dict]> ∅)).

(** The payload of [test_Member_user_accessor]: it has no [roles] key. *)
Definition payload_user_accessor : gmap string Raw :=
  <["joined_at" := RawStr "2019-05-17T06:26:56.936000+00:00"]>
  (<["user" := RawObject "user_obj"]> ∅).

(** The payload of [test_Member_guild_accessor]: no [roles] key either. *)
Definition payload_guild_accessor : gmap string Raw :=
  <["joined_at" := RawStr "2019-05-17T06:26:56.936000+00:00"]>
  (<["user" := RawObject "user_obj"]>
  (<["guild_id" := RawInt 1234]> ∅)).

Definition utc (Y M D h m sec us : Z) : mock_datetime :=
  {| year := Y; month := M; day := D; hour := h; minute := m; second := sec;
     microsecond := us; utcoffset := 0 |}.

(** Each test is the check its body performs, for a given [Member]
    constructor; a constructor that raises fails the test. *)
Definition test_Member_with_filled_fields (Member : MemberConstructor) : bool :=
  match Member fabric_obj "guild_obj" payload_with_filled_fields with
  | Returned member_obj =>
      bool_decide (Member.nick member_obj = Some "foobarbaz")
      && bool_decide (Member.joined_at member_obj = utc 2015 4 26 6 26 56 936000)
      && bool_decide (Member.premium_since member_obj = Some (utc 2019 5 17 6 26 56 936000))
      && bool_decide (Member.guild member_obj = "guild_obj")
  | Raised _ => false
  end.

Definition test_Member_with_no_optional_fields (Member : MemberConstructor) : bool :=
  match Member fabric_obj "guild_obj" payload_with_no_optional_fields with
  | Returned member_obj =>
      bool_decide (Member.nick member_obj = None)
      && bool_decide (Member.joined_at member_obj = utc 2015 4 26 6 26 56 936000)
      && bool_decide (Member.premium_since member_obj = None)
      && bool_decide (Member.guild member_obj = "guild_obj")
  | Raised _ => false
  end.

Definition test_Member_update_state (Member : MemberConstructor) : bool :=
  let role_objs := ["role_one"; "role_two"; "role_three"] in
  match Member fabric_obj "guild_obj" payload_with_no_optional_fields with
  | Returned member_obj =>
      let member_obj := update_state member_obj role_objs (Some "potato") in
      bool_decide (Member.nick member_obj = Some "potato")
      && bool_decide (Member.roles member_obj = role_objs)
  | Raised _ => false
  end.

(** [test_Member_user_accessor] replaces [parse_user] and [get_guild_by_id]
    by mocks that return [user_obj] and [guild_obj]. *)
Definition accessor_fabric : Fabric := {|
  state_registry := {|
    parse_user := fun _ => "user_obj";
    get_role_by_id := get_role_by_id mock_state_registry;
    get_guild_by_id := fun _ => Some "guild_obj"
  |}
|}.

(** [test_Member_guild_accessor] replaces [parse_user] alone; the other
    methods of the registry stay the mocks of the fixture. *)
Definition guild_accessor_fabric : Fabric := {|
  state_registry := {|
    parse_user := fun _ => "user_obj";
    get_role_by_id := get_role_by_id mock_state_registry;
    get_guild_by_id := get_guild_by_id mock_state_registry
  |}
|}.

Definition test_Member_user_accessor (Member : MemberConstructor) : bool :=
  match Member accessor_fabric "guild_obj" payload_user_accessor with
  | Returned member_obj => bool_decide (Member.user member_obj = "user_obj")
  | Raised _ => false
  end.

Definition test_Member_guild_accessor (Member : MemberConstructor) : bool :=
  match Member guild_accessor_fabric "guild_obj" payload_guild_accessor with
  | Returned m => bool_decide (Member.guild m = "guild_obj")
  | Raised _ => false
  end.

(** ** Option nodes built from inbound data *)

(** The JSON object of one option of an inbound interaction: its [name] and
    [type], and the [value] and [options] keys when the payload has them. *)
Inductive OptionPayload : Type :=
| option_payload (name : string) (type : Z)
    (value : option (list OptionValue)) (options : option (list OptionPayload)).

(** The results of a list of constructions, or the first exception. *)
Fixpoint all_returned {A : Type} (outcomes : list (Outcome A)) : Outcome (list A) :=
  match outcomes with
  | [] => Returned []
  | first :: rest => a ← first; others ← all_returned rest; Returned (a :: others)
  end.

(** Modelled from the spec: the deserializer that builds
    [CommandInteractionOption] nodes from inbound data is not under src.
    Section 4.5: a node whose type is SUB_COMMAND or SUB_COMMAND_GROUP always
    carries [options], built from the nested payloads, and never [value];
    a node of any other type carries the payload's [value] and never
    [options]. *)
Fixpoint deserialize_option (payload : OptionPayload) : Outcome CommandInteractionOption.t :=
  match payload with
  | option_payload name type value options =>
      if is_sub_command_type type then
        children ← all_returned
                     match options with
                     | Some raw_options => map deserialize_option raw_options
                     | None => []
                     end;
        Returned (CommandInteractionOption.make name type None (Some children))
      else
        match value with
        | Some v => Returned (CommandInteractionOption.make name type (Some v) None)
        | None => Raised (KeyError "value")
        end
  end.

(** Every node of an option tree: the option and the nodes below it. *)
Fixpoint nodes (option : CommandInteractionOption.t) : list CommandInteractionOption.t :=
  match option with
  | CommandInteractionOption.make _ _ _ options =>
      option :: match options with
                | Some children => flat_map nodes children
                | None => []
                end
  end.

(** A valid inbound payload: every option that is not a sub command or a
    group, at any depth, comes with a value. *)
Fixpoint valid_payload (payload : OptionPayload) : bool :=
  match payload with
  | option_payload _ type value options =>
      if is_sub_command_type type then
        match options with
        | Some raw_options => forallb valid_payload raw_options
        | None => true
        end
      else populated value
  end.

(** The payload of [/settings notifications set level:"all"], a group that
    holds a sub command that holds one string option. *)
Definition nested_payload : OptionPayload :=
  option_payload "notifications" SUB_COMMAND_GROUP None
    (Some [option_payload "set" SUB_COMMAND None
             (Some [option_payload "level" STRING (Some [ValueStr "all"]) None])]).

(** A node has exactly one of its two fields populated, in the way its type
    asks, and so never both. *)
Definition carries_exactly_one (node : CommandInteractionOption.t) : Prop :=
  exactly_one_populated node = true
  /\ populated (CommandInteractionOption.value node)
     && populated (CommandInteractionOption.options node) = false.

(** What [deserialize_option] yields for one payload, as the theorem on
    the producer states it. *)
Definition produces_exclusive_nodes (payload : OptionPayload) : Prop :=
  match deserialize_option payload with
  | Returned option => Forall carries_exactly_one (nodes option)
  | Raised e => e = KeyError "value" /\ valid_payload payload = false
  end.

(** ** Equality of commands and sequencing of method calls *)

(** [Command] is declared with [attr.define(hash=True)] and every field but
    [id] carries [eq=False]: the generated [__eq__] of two commands compares
    the one-field tuples [(self.id,)] and [(other.id,)]. *)
Definition Command_eq (self other : Command.t) : bool :=
  Z.eqb (Command.id self) (Command.id other).

(** [x = await first; await second(x)]: the statements of a coroutine that
    calls one method on the result of another. *)
Fixpoint Prog_bind `{HikariObjects} {A B : Type} (first : Prog A) (second : A -> Prog B)
    : Prog B :=
  match first with
  | Return a => second a
  | Assert cond k => Assert cond (Prog_bind k second)
  | Invoke c k => Invoke c (fun x => Prog_bind (k x) second)
  end.

(** * Properties *)

(** ** Running a method body *)

Lemma run_Invoke_Return `{HikariObjects} {X : Type} (debug : bool)
    (world : Collaborators) (c : Call X) (log : list Logged) :
  run debug world (Invoke c Return) log = forwarded world c log.
Proof.
  unfold forwarded; simpl.
  destruct (world log X c); reflexivity.
Qed.

Lemma run_Invoke_unit `{HikariObjects} (debug : bool)
    (world : Collaborators) (c : Call unit) (log : list Logged) :
  run debug world (Invoke c (fun _ => Return tt)) log = forwarded world c log.
Proof.
  unfold forwarded; simpl.
  destruct (world log unit c) as [[]|]; reflexivity.
Qed.

Lemma truthy_Some (g : Snowflake) : truthy (Some g) = negb (Z.eqb g 0).
Proof. reflexivity. Qed.

Lemma truthy_nonzero (g : Snowflake) : g <> 0 -> truthy (Some g) = true.
Proof.
  intros Hg; rewrite truthy_Some.
  destruct (Z.eqb_spec g 0); [contradiction | reflexivity].
Qed.

Lemma truthy_false (guild_id : option Snowflake) :
  truthy guild_id = false <-> guild_id = None \/ guild_id = Some 0.
Proof.
  destruct guild_id as [g|]; simpl.
  - destruct (Z.eqb_spec g 0) as [->|Hne]; simpl.
    + split; [right; reflexivity | reflexivity].
    + split; [discriminate | intros [H|H]; [discriminate | congruence]].
  - split; [left; reflexivity | reflexivity].
Qed.

(** [x is None] and the sentinel: the guild argument of a [Command] method is
    never the raw [None]. *)
Lemma UNDEFINED_if_None_not_NONE (guild_id : option Snowflake) :
  UNDEFINED_if_None guild_id <> NONE.
Proof. destruct guild_id; discriminate. Qed.

(** ** Command: fetch_self, edit, delete *)

(** C4: for every Command, fetch_self, edit and delete each make exactly one
    REST call, with (application_id, id, guild_id) when guild_id is set and
    with the UNDEFINED sentinel, never the raw None, as third argument when
    guild_id is None; the outcome of the call is the outcome of the method. *)
Theorem command_operations_forward_scope `{HikariObjects}
    (self : Command.t) (debug : bool) (world : Collaborators) (log : list Logged) :
  let application := Command.application_id self in
  let command := Command.id self in
  let operations (guild : UndefinedNoneOr Snowflake) : Prop :=
    run debug world (fetch_self self) log
      = forwarded world (rest_fetch_application_command application command guild) log
    /\ (forall name description options,
          run debug world (edit self name description options) log
          = forwarded world
              (rest_edit_application_command application command guild
                 (default UNDEFINED name) (default UNDEFINED description)
                 (default UNDEFINED options)) log)
    /\ run debug world (delete self) log
      = forwarded world (rest_delete_application_command application command guild) log in
  (forall g, Command.guild_id self = Some g -> operations (Value g))
  /\ (Command.guild_id self = None -> operations UNDEFINED)
  /\ UNDEFINED_if_None (Command.guild_id self) <> NONE.
Proof.
  intros application command operations; subst operations; cbv beta.
  split; [|split].
  - intros g Hg. unfold fetch_self, edit, delete. rewrite Hg.
    split; [|split]; intros;
      first [apply run_Invoke_Return | apply run_Invoke_unit].
  - intros Hg. unfold fetch_self, edit, delete. rewrite Hg.
    split; [|split]; intros;
      first [apply run_Invoke_Return | apply run_Invoke_unit].
  - apply UNDEFINED_if_None_not_NONE.
Qed.

(** The fixture command of the tests, guild scoped and then global. *)
Lemma command_operations_forward_scope_witness :
  snd (run true (mock_world None) (fetch_self mock_command) [])
    = [Log (rest_fetch_application_command 65234123 34123123 (Value 31231235))]
  /\ snd (run true (mock_world None) (delete (command_with_guild_id None mock_command)) [])
    = [Log (rest_delete_application_command 65234123 34123123 UNDEFINED)].
Proof.
  split.
  - destruct (command_operations_forward_scope mock_command true (mock_world None) [])
      as [Hguild _].
    destruct (Hguild 31231235 eq_refl) as [Hfetch _].
    rewrite Hfetch. reflexivity.
  - destruct (command_operations_forward_scope
                (command_with_guild_id None mock_command) true (mock_world None) [])
      as [_ [Hglobal _]].
    destruct (Hglobal eq_refl) as [_ [_ Hdelete]].
    rewrite Hdelete. reflexivity.
Defined.

(** C5: for every Command, edit() with no arguments forwards UNDEFINED for
    name, description and options; with explicit values it forwards exactly
    those values (a keyword that is left out alone falls back to UNDEFINED);
    the guild argument is the one fetch_self passes; the method makes that
    single call and its outcome is the REST client's, unchanged. *)
Theorem edit_forwards_arguments `{HikariObjects}
    (self : Command.t) (debug : bool) (world : Collaborators) (log : list Logged) :
  let application := Command.application_id self in
  let command := Command.id self in
  let guild := UNDEFINED_if_None (Command.guild_id self) in
  run debug world (edit self None None None) log
    = forwarded world
        (rest_edit_application_command application command guild
           UNDEFINED UNDEFINED UNDEFINED) log
  /\ (forall name description options,
        run debug world (edit self (Some name) (Some description) (Some options)) log
        = forwarded world
            (rest_edit_application_command application command guild
               name description options) log)
  /\ (forall name description options,
        run debug world (edit self name description options) log
        = forwarded world
            (rest_edit_application_command application command guild
               (match name with Some v => v | None => UNDEFINED end)
               (match description with Some v => v | None => UNDEFINED end)
               (match options with Some v => v | None => UNDEFINED end)) log)
  /\ run debug world (fetch_self self) log
    = forwarded world (rest_fetch_application_command application command guild) log
  /\ (forall g, Command.guild_id self = Some g -> guild = Value g)
  /\ (Command.guild_id self = None -> guild = UNDEFINED).
Proof.
  intros application command guild.
  split; [apply run_Invoke_Return|].
  split; [intros; apply run_Invoke_Return|].
  split; [intros [?|] [?|] [?|]; apply run_Invoke_Return|].
  split; [apply run_Invoke_Return|].
  split.
  - intros g Hg. subst guild. rewrite Hg. reflexivity.
  - intros Hg. subst guild. rewrite Hg. reflexivity.
Qed.

(** [test_edit_when_guild_id_is_none]: the global command. *)
Lemma edit_forwards_arguments_witness :
  run true (mock_world None)
    (edit (command_with_guild_id None mock_command) None None None) []
  = (Returned return_value_command,
     [Log (rest_edit_application_command 65234123 34123123 UNDEFINED
             UNDEFINED UNDEFINED UNDEFINED)]).
Proof.
  destruct (edit_forwards_arguments (command_with_guild_id None mock_command)
              true (mock_world None) []) as [Hdefaults _].
  rewrite Hdefaults. reflexivity.
Defined.

(** [test_edit_without_optional_args] and [test_edit_with_optional_args]. *)
Example test_edit :
  run true (mock_world None) (edit mock_command None None None) []
    = (Returned return_value_command,
       [Log (rest_edit_application_command 65234123 34123123 (Value 31231235)
               UNDEFINED UNDEFINED UNDEFINED)])
  /\ run true (mock_world None)
       (edit mock_command (Some (Value "new name")) (Some (Value "very descrypt"))
          (Some (Value [])))
       []
    = (Returned return_value_command,
       [Log (rest_edit_application_command 65234123 34123123 (Value 31231235)
               (Value "new name") (Value "very descrypt") (Value []))]).
Proof. split; reflexivity. Qed.

(** ** CommandInteraction: response builders *)

Lemma COMMAND_RESPONSE_TYPES_spec (t : Z) :
  t ∈ COMMAND_RESPONSE_TYPES <-> t = 4 \/ t = 5.
Proof.
  unfold COMMAND_RESPONSE_TYPES, ResponseType.MESSAGE_CREATE,
    ResponseType.DEFERRED_MESSAGE_CREATE.
  rewrite elem_of_list_to_set, !elem_of_cons, elem_of_nil. tauto.
Qed.

(** C7: for every CommandInteraction, build_response() asks the REST client
    for a message builder with response type 4 (MESSAGE_CREATE) and
    build_deferred_response() for a deferred builder with response type 5
    (DEFERRED_MESSAGE_CREATE); each makes that single call and returns what the
    client returned; 4 and 5 are members of COMMAND_RESPONSE_TYPES. *)
Theorem response_builders_are_seeded `{HikariObjects}
    (self : CommandInteraction.t) (debug : bool) (world : Collaborators)
    (log : list Logged) :
  run debug world (build_response self) log
    = forwarded world (rest_interaction_message_builder 4) log
  /\ run debug world (build_deferred_response self) log
    = forwarded world (rest_interaction_deferred_builder 5) log
  /\ ResponseType.MESSAGE_CREATE = 4
  /\ ResponseType.DEFERRED_MESSAGE_CREATE = 5
  /\ ResponseType.MESSAGE_CREATE ∈ COMMAND_RESPONSE_TYPES
  /\ ResponseType.DEFERRED_MESSAGE_CREATE ∈ COMMAND_RESPONSE_TYPES.
Proof.
  split; [apply run_Invoke_Return|].
  split; [apply run_Invoke_Return|].
  split; [reflexivity|].
  split; [reflexivity|].
  split; apply COMMAND_RESPONSE_TYPES_spec; [left | right]; reflexivity.
Qed.

(** ** CommandInteraction: fetch_command *)

(** What [fetch_command] sends, for every interaction: the [command]
    argument is the interaction's own [id]. *)
Lemma fetch_command_forwards `{HikariObjects}
    (self : CommandInteraction.t) (debug : bool) (world : Collaborators)
    (log : list Logged) :
  run debug world (fetch_command self) log
  = forwarded world
      (rest_fetch_application_command
         (CommandInteraction.application_id self)
         (CommandInteraction.id self)
         (or_UNDEFINED (CommandInteraction.guild_id self))) log.
Proof. apply run_Invoke_Return. Qed.

(** C1: at the fixture of the tests (interaction id 2312312, command_id
    3123123, application_id 43123, guild_id 5412231) fetch_command() asks the
    REST client for command 2312312, the id of the interaction, and not for
    command_id 3123123; the claim says the command argument is command_id. *)
Theorem fetch_command_requests_interaction_id :
  CommandInteraction.id mock_command_interaction = 2312312
  /\ CommandInteraction.command_id mock_command_interaction = 3123123
  /\ snd (run true (mock_world None) (fetch_command mock_command_interaction) [])
     = [Log (rest_fetch_application_command 43123 2312312 (Value 5412231))]
  /\ snd (run true (mock_world None) (fetch_command mock_command_interaction) [])
     <> [Log (rest_fetch_application_command 43123 3123123 (Value 5412231))].
Proof.
  split; [reflexivity|].
  split; [reflexivity|].
  split; [reflexivity|].
  simpl. intros Heq. inversion Heq.
Qed.

(** ** CommandInteraction: get_channel *)

(** C2: for an interaction triggered in a DM (guild_id None) whose app is
    cache aware, get_channel() still looks channel_id up in the cache: on a
    cache miss the assertion fails, and when the cache holds a guild text
    channel under that id, that channel is returned; the claim says None is
    returned in both cases. *)
Theorem get_channel_in_dm_consults_cache :
  CommandInteraction.guild_id (with_guild_id None mock_command_interaction) = None
  /\ run true (mock_world None)
       (get_channel (with_guild_id None mock_command_interaction)) []
     = (Raised AssertionError, [Log (cache_get_guild_channel 3123123)])
  /\ run true (mock_world (Some Mock_GuildTextChannel))
       (get_channel (with_guild_id None mock_command_interaction)) []
     = (Returned (Some Mock_GuildTextChannel), [Log (cache_get_guild_channel 3123123)]).
Proof. repeat split. Qed.

(** C3 as stated fails: with a cache aware app, a cache miss and a cached
    voice channel both end in a failed assertion, not in None. *)
Lemma get_channel_assertion_fails :
  isinstance_CacheAware (CommandInteraction.app mock_command_interaction) = true
  /\ run true (mock_world None) (get_channel mock_command_interaction) []
     = (Raised AssertionError, [Log (cache_get_guild_channel 3123123)])
  /\ run true (mock_world (Some Mock_GuildVoiceChannel))
       (get_channel mock_command_interaction) []
     = (Raised AssertionError, [Log (cache_get_guild_channel 3123123)])
  /\ (Raised AssertionError : Outcome (option Channel)) <> Returned None.
Proof.
  split; [reflexivity|].
  split; [reflexivity|].
  split; [reflexivity|].
  discriminate.
Qed.

(** C3, amended: get_channel() only ever reads the cache.  When the app is
    cache aware it makes exactly one call, the cache lookup of channel_id; if
    the cache returns a guild text or news channel, exactly that channel is
    returned; if it returns a channel of another kind, the isinstance
    assertion fails (and with assertions disabled the channel is returned as
    it is); an exception of the cache is propagated.  When the app is not
    cache aware it returns None and makes no call.  No call of the method is
    a REST call. *)
Theorem get_channel_reads_only_the_cache `{HikariObjects}
    (self : CommandInteraction.t) (debug : bool) (world : Collaborators)
    (log : list Logged) :
  let lookup := cache_get_guild_channel (CommandInteraction.channel_id self) in
  let result := run debug world (get_channel self) log in
  (isinstance_CacheAware (CommandInteraction.app self) = true ->
     snd result = log ++ [Log lookup]
     /\ (forall channel,
           world log _ lookup = Returned (Some channel) ->
           isinstance_GuildTextChannel channel || isinstance_GuildNewsChannel channel = true ->
           fst result = Returned (Some channel))
     /\ (forall channel,
           world log _ lookup = Returned (Some channel) ->
           isinstance_GuildTextChannel channel || isinstance_GuildNewsChannel channel = false ->
           fst result = if debug then Raised AssertionError else Returned (Some channel))
     /\ (forall e, world log _ lookup = Raised e -> fst result = Raised e))
  /\ (isinstance_CacheAware (CommandInteraction.app self) = false ->
      result = (Returned None, log))
  /\ (exists calls, snd result = log ++ calls /\ forallb is_cache_call calls = true).
Proof.
  intros lookup result; subst result lookup.
  unfold get_channel.
  destruct (isinstance_CacheAware (CommandInteraction.app self)); simpl.
  - split; [intros _ | split; [discriminate|]].
    + destruct (world log (option Channel)
                  (cache_get_guild_channel (CommandInteraction.channel_id self)))
        as [channel|e] eqn:Hworld.
      * split.
        { destruct (debug && negb (isinstance_guild_text_or_news channel)); reflexivity. }
        split; [|split].
        -- intros ch Hch Hkind. injection Hch as ->. simpl. rewrite Hkind.
           rewrite andb_false_r. reflexivity.
        -- intros ch Hch Hkind. injection Hch as ->. simpl. rewrite Hkind.
           rewrite andb_true_r. destruct debug; reflexivity.
        -- discriminate.
      * split; [reflexivity|].
        split; [discriminate|].
        split; [discriminate|].
        intros e' He'. injection He' as ->. reflexivity.
    + exists [Log (cache_get_guild_channel (CommandInteraction.channel_id self))].
      split; [|reflexivity].
      destruct (world log (option Channel)
                  (cache_get_guild_channel (CommandInteraction.channel_id self)))
        as [channel|e]; [|reflexivity].
      destruct (debug && negb (isinstance_guild_text_or_news channel)); reflexivity.
  - split; [discriminate|].
    split; [reflexivity|].
    exists []. rewrite app_nil_r. split; reflexivity.
Qed.

(** [test_get_channel] and [test_get_channel_without_cache]. *)
Lemma get_channel_reads_only_the_cache_witness :
  fst (run true (mock_world (Some Mock_GuildTextChannel))
         (get_channel mock_command_interaction) [])
    = Returned (Some Mock_GuildTextChannel)
  /\ run true (mock_world (Some Mock_GuildTextChannel))
       (get_channel (with_app mock_rest_only_app mock_command_interaction)) []
    = (Returned None, []).
Proof.
  split.
  - destruct (get_channel_reads_only_the_cache mock_command_interaction true
                (mock_world (Some Mock_GuildTextChannel)) []) as [Hcache _].
    destruct (Hcache eq_refl) as [_ [Htext _]].
    apply (Htext Mock_GuildTextChannel); reflexivity.
  - destruct (get_channel_reads_only_the_cache
                (with_app mock_rest_only_app mock_command_interaction) true
                (mock_world (Some Mock_GuildTextChannel)) []) as [_ [Hnocache _]].
    apply Hnocache. reflexivity.
Defined.

(** ** CommandInteraction: fetch_guild, get_guild *)

(** C6 as stated fails: guild_id 0 is present, yet it is falsy, so neither
    method calls its collaborator and both return None. *)
Lemma guild_lookups_skip_zero_guild_id :
  CommandInteraction.guild_id (with_guild_id (Some 0) mock_command_interaction) = Some 0
  /\ isinstance_CacheAware
       (CommandInteraction.app (with_guild_id (Some 0) mock_command_interaction)) = true
  /\ run true (mock_world None)
       (fetch_guild (with_guild_id (Some 0) mock_command_interaction)) []
     = (Returned None, [])
  /\ run true (mock_world None)
       (get_guild (with_guild_id (Some 0) mock_command_interaction)) []
     = (Returned None, []).
Proof. repeat split. Qed.

(** C6, amended: for every CommandInteraction whose guild_id is None or 0
    (a falsy guild_id), fetch_guild() and get_guild() both return None with no
    call at all; when guild_id is present and not 0, fetch_guild() makes
    exactly one call, REST fetch_guild with that id, and returns its result,
    and get_guild() makes exactly one call, cache get_guild with that id, and
    returns its result when the app is cache aware, and returns None with no
    call when it is not. *)
Theorem guild_lookups_short_circuit `{HikariObjects}
    (self : CommandInteraction.t) (debug : bool) (world : Collaborators)
    (log : list Logged) :
  (CommandInteraction.guild_id self = None \/ CommandInteraction.guild_id self = Some 0 ->
     run debug world (fetch_guild self) log = (Returned None, log)
     /\ run debug world (get_guild self) log = (Returned None, log))
  /\ (forall g, CommandInteraction.guild_id self = Some g -> g <> 0 ->
        run debug world (fetch_guild self) log
        = (match world log _ (rest_fetch_guild g) with
           | Returned guild => Returned (Some guild)
           | Raised e => Raised e
           end, log ++ [Log (rest_fetch_guild g)])
        /\ (isinstance_CacheAware (CommandInteraction.app self) = true ->
            run debug world (get_guild self) log = forwarded world (cache_get_guild g) log)
        /\ (isinstance_CacheAware (CommandInteraction.app self) = false ->
            run debug world (get_guild self) log = (Returned None, log))).
Proof.
  split.
  - intros Hfalsy. apply truthy_false in Hfalsy.
    unfold fetch_guild, get_guild. rewrite Hfalsy. split; reflexivity.
  - intros g Hg Hnonzero.
    unfold fetch_guild, get_guild. rewrite Hg, (truthy_nonzero g Hnonzero). simpl.
    split; [|split].
    + destruct (world log RESTGuild (rest_fetch_guild g)); reflexivity.
    + intros ->. apply run_Invoke_Return.
    + intros ->. reflexivity.
Qed.

(** [test_fetch_guild], [test_fetch_guild_for_dm_interaction],
    [test_get_guild] and [test_get_guild_when_cacheless]. *)
Lemma guild_lookups_short_circuit_witness :
  run true (mock_world None)
    (fetch_guild (with_guild_id (Some 43123123) mock_command_interaction)) []
    = (Returned (Some "fetch_guild.return_value"), [Log (rest_fetch_guild 43123123)])
  /\ run true (mock_world None)
       (fetch_guild (with_guild_id None mock_command_interaction)) []
    = (Returned None, [])
  /\ run true (mock_world None)
       (get_guild (with_guild_id (Some 874356) mock_command_interaction)) []
    = (Returned (Some "get_guild.return_value"), [Log (cache_get_guild 874356)])
  /\ run true (mock_world None)
       (get_guild (with_app mock_rest_only_app
                     (with_guild_id (Some 321123) mock_command_interaction))) []
    = (Returned None, []).
Proof.
  split; [|split; [|split]].
  - destruct (guild_lookups_short_circuit
                (with_guild_id (Some 43123123) mock_command_interaction)
                true (mock_world None) []) as [_ Hpresent].
    destruct (Hpresent 43123123 eq_refl ltac:(discriminate)) as [Hfetch _].
    rewrite Hfetch. reflexivity.
  - destruct (guild_lookups_short_circuit
                (with_guild_id None mock_command_interaction)
                true (mock_world None) []) as [Habsent _].
    destruct (Habsent (or_introl eq_refl)) as [Hfetch _].
    exact Hfetch.
  - destruct (guild_lookups_short_circuit
                (with_guild_id (Some 874356) mock_command_interaction)
                true (mock_world None) []) as [_ Hpresent].
    destruct (Hpresent 874356 eq_refl ltac:(discriminate)) as [_ [Hget _]].
    rewrite (Hget eq_refl). reflexivity.
  - destruct (guild_lookups_short_circuit
                (with_app mock_rest_only_app
                   (with_guild_id (Some 321123) mock_command_interaction))
                true (mock_world None) []) as [_ Hpresent].
    destruct (Hpresent 321123 eq_refl ltac:(discriminate)) as [_ [_ Hget]].
    exact (Hget eq_refl).
Defined.

(** ** CommandInteractionOption *)

Lemma exactly_one_populated_spec (node : CommandInteractionOption.t) :
  exactly_one_populated node = true <->
  (is_sub_command_type (CommandInteractionOption.type node) = true
   /\ CommandInteractionOption.options node <> None
   /\ CommandInteractionOption.value node = None)
  \/ (is_sub_command_type (CommandInteractionOption.type node) = false
      /\ CommandInteractionOption.value node <> None
      /\ CommandInteractionOption.options node = None).
Proof.
  unfold exactly_one_populated.
  destruct node as [name type [v|] [o|]]; simpl;
    destruct (is_sub_command_type type); simpl; split;
    first [ discriminate
          | intros _; first [ left; repeat split; discriminate
                            | right; repeat split; discriminate ]
          | intros [[Ht [Ho Hv]]|[Ht [Hv Ho]]];
            first [ discriminate | reflexivity | contradiction ] ].
Qed.

Lemma OptionPayload_nested_ind (P : OptionPayload -> Prop) :
  (forall name type value options,
     Forall P (match options with Some raw_options => raw_options | None => [] end) ->
     P (option_payload name type value options)) ->
  forall payload, P payload.
Proof.
  intros Hstep. fix IH 1. intros [name type value options]. apply Hstep.
  destruct options as [raw_options|]; [|constructor].
  induction raw_options as [|raw rest IHrest]; constructor; [apply IH | exact IHrest].
Qed.

Lemma children_are_exclusive (raw_options : list OptionPayload) :
  Forall produces_exclusive_nodes raw_options ->
  match all_returned (map deserialize_option raw_options) with
  | Returned children => Forall carries_exactly_one (flat_map nodes children)
  | Raised e => e = KeyError "value" /\ forallb valid_payload raw_options = false
  end.
Proof.
  induction 1 as [|raw rest Hraw _ IHrest]; simpl.
  - constructor.
  - unfold produces_exclusive_nodes in Hraw.
    destruct (deserialize_option raw) as [child|e]; simpl.
    + destruct (all_returned (map deserialize_option rest)) as [children|e]; simpl.
      * apply Forall_app. split; assumption.
      * destruct IHrest as [-> Hrest]. rewrite Hrest, andb_false_r.
        split; reflexivity.
    + destruct Hraw as [-> Hinvalid]. rewrite Hinvalid. split; reflexivity.
Qed.

(** C10: for every inbound option payload, every node of the tree that is
    built from it, at any depth, has exactly one of value and options
    populated: options, and never value, when the node's type is SUB_COMMAND
    or SUB_COMMAND_GROUP, and value, and never options, for every other type;
    no node has both.  A tree is built for every valid payload; the only
    failure is the missing value of an option that is not a sub command. *)
Theorem built_options_carry_exactly_one (payload : OptionPayload) :
  match deserialize_option payload with
  | Returned option =>
      Forall
        (fun node =>
           (is_sub_command_type (CommandInteractionOption.type node) = true ->
            CommandInteractionOption.options node <> None
            /\ CommandInteractionOption.value node = None)
           /\ (is_sub_command_type (CommandInteractionOption.type node) = false ->
               CommandInteractionOption.value node <> None
               /\ CommandInteractionOption.options node = None)
           /\ populated (CommandInteractionOption.value node)
              && populated (CommandInteractionOption.options node) = false)
        (nodes option)
  | Raised e => e = KeyError "value" /\ valid_payload payload = false
  end.
Proof.
  assert (produces_exclusive_nodes payload) as Hpayload.
  { induction payload as [name type value options IH] using OptionPayload_nested_ind.
    unfold produces_exclusive_nodes. simpl.
    destruct (is_sub_command_type type) eqn:Htype.
    - destruct options as [raw_options|].
      + apply children_are_exclusive in IH.
        destruct (all_returned (map deserialize_option raw_options)) as [children|e];
          simpl; [|exact IH].
        constructor; [|exact IH].
        split; [unfold exactly_one_populated; simpl; rewrite Htype|]; reflexivity.
      + simpl. constructor; [|constructor].
        split; [unfold exactly_one_populated; simpl; rewrite Htype|]; reflexivity.
    - destruct value as [v|]; simpl.
      + constructor; [|constructor].
        split; [unfold exactly_one_populated; simpl; rewrite Htype|]; reflexivity.
      + split; reflexivity. }
  unfold produces_exclusive_nodes in Hpayload.
  destruct (deserialize_option payload) as [option|e]; [|exact Hpayload].
  eapply Forall_impl; [exact Hpayload|].
  intros node [Hone Hboth]. apply exactly_one_populated_spec in Hone.
  split; [|split; [|exact Hboth]].
  - intros Htype. destruct Hone as [[_ Hone]|[Hleaf _]]; [exact Hone | congruence].
  - intros Htype. destruct Hone as [[Hbranch _]|[_ Hone]]; [congruence | exact Hone].
Qed.

(** A nested payload, and the three nodes built from it. *)
Example nested_payload_is_built :
  valid_payload nested_payload = true
  /\ (exists option,
        deserialize_option nested_payload = Returned option
        /\ map CommandInteractionOption.name (nodes option)
           = ["notifications"; "set"; "level"]
        /\ map exactly_one_populated (nodes option) = [true; true; true]).
Proof. split; [reflexivity|]. eexists. repeat split. Qed.

(** ** The legacy member: construction *)

(** The five tests of [test_members.py] can pass together: they do on a
    constructor that differs from the letter of the specification in the
    reading of the [roles] key alone. *)
Lemma tests_can_pass :
  exists raw_roles : gmap string Raw -> Outcome Raw,
    test_Member_with_filled_fields (construct_member raw_roles) = true
    /\ test_Member_with_no_optional_fields (construct_member raw_roles) = true
    /\ test_Member_update_state (construct_member raw_roles) = true
    /\ test_Member_user_accessor (construct_member raw_roles) = true
    /\ test_Member_guild_accessor (construct_member raw_roles) = true.
Proof.
  exists (fun payload => Returned (default (RawList []) (payload !! "roles"))).
  repeat split; vm_compute; reflexivity.
Qed.

(** Whatever the constructor is, if [test_Member_user_accessor] passes on
    it then it builds a member from a payload that has no [roles] key. *)
Lemma user_accessor_test_needs_optional_roles (Member : MemberConstructor) :
  test_Member_user_accessor Member = true ->
  exists payload member_obj,
    payload !! "roles" = None
    /\ Member accessor_fabric "guild_obj" payload = Returned member_obj.
Proof.
  unfold test_Member_user_accessor. intros Htest.
  exists payload_user_accessor.
  destruct (Member accessor_fabric "guild_obj" payload_user_accessor)
    as [member_obj|e]; [|discriminate].
  exists member_obj. split; reflexivity.
Qed.


Lemma resolve_roles_raises `{OrmObjects} (registry : IStateRegistry) (raw : Raw)
    (e : Exception) :
  resolve_roles registry raw = Raised e -> e = ValueError.
Proof. destruct raw; simpl; congruence. Qed.

Lemma parse_timestamp_raises `{OrmObjects} (raw : Raw) (e : Exception) :
  parse_timestamp raw = Raised e -> e = ValueError.
Proof.
  destruct raw; simpl; try congruence.
  destruct (parse_iso_8601_ts s); congruence.
Qed.



(** ** The legacy member: update_state *)

(** C9: for every legacy Member and every role sequence new_roles,
    update_state(new_roles, "potato") leaves a member whose roles are exactly
    new_roles and whose nick is "potato", with joined_at, premium_since, user
    and guild as they were. *)
Theorem update_state_replaces_roles_and_nick `{OrmObjects}
    (self : Member.t) (new_roles : list OrmRole) :
  let updated := update_state self new_roles (Some "potato") in
  Member.roles updated = new_roles
  /\ Member.nick updated = Some "potato"
  /\ Member.joined_at updated = Member.joined_at self
  /\ Member.premium_since updated = Member.premium_since self
  /\ Member.user updated = Member.user self
  /\ Member.guild updated = Member.guild self.
Proof. repeat split. Qed.

(** The same for any new nick, also for clearing it. *)
Lemma update_state_frame `{OrmObjects}
    (self : Member.t) (new_roles : list OrmRole) (new_nick : option string) :
  update_state self new_roles new_nick
  = {| Member.nick := new_nick;
       Member.roles := new_roles;
       Member.joined_at := Member.joined_at self;
       Member.premium_since := Member.premium_since self;
       Member.user := Member.user self;
       Member.guild := Member.guild self |}.
Proof. reflexivity. Qed.

(** * Further properties of [commands.py] *)

(** ** fetch_channel *)

(** For every interaction, fetch_channel() makes exactly one call, REST
    fetch_channel with channel_id.  A text channel is returned as it is; for
    any other channel the assertion fails (with assertions disabled the
    channel is returned all the same); an error of the REST client is raised
    unchanged. *)
Theorem fetch_channel_returns_text_channel `{HikariObjects}
    (self : CommandInteraction.t) (debug : bool) (world : Collaborators)
    (log : list Logged) :
  let request := rest_fetch_channel (CommandInteraction.channel_id self) in
  let result := run debug world (fetch_channel self) log in
  snd result = log ++ [Log request]
  /\ (forall channel,
        world log _ request = Returned channel ->
        isinstance_TextChannel channel = true ->
        fst result = Returned channel)
  /\ (forall channel,
        world log _ request = Returned channel ->
        isinstance_TextChannel channel = false ->
        fst result = if debug then Raised AssertionError else Returned channel)
  /\ (forall e, world log _ request = Raised e -> fst result = Raised e).
Proof.
  intros request result; subst result request.
  unfold fetch_channel; simpl.
  destruct (world log Channel (rest_fetch_channel (CommandInteraction.channel_id self)))
    as [channel|e] eqn:Hworld.
  - split.
    { destruct (debug && negb (isinstance_TextChannel channel)); reflexivity. }
    split; [|split].
    + intros ch Hch Hkind. injection Hch as ->. rewrite Hkind.
      rewrite andb_false_r. reflexivity.
    + intros ch Hch Hkind. injection Hch as ->. rewrite Hkind.
      rewrite andb_true_r. destruct debug; reflexivity.
    + discriminate.
  - split; [reflexivity|].
    split; [discriminate|].
    split; [discriminate|].
    intros e' He'. injection He' as ->. reflexivity.
Qed.

(** [test_fetch_channel]. *)
Lemma fetch_channel_returns_text_channel_witness :
  run true (mock_world None) (fetch_channel mock_command_interaction) []
  = (Returned Mock_GuildTextChannel, [Log (rest_fetch_channel 3123123)]).
Proof.
  destruct (fetch_channel_returns_text_channel mock_command_interaction true
              (mock_world None) []) as [Hcalls [Htext _]].
  apply injective_projections.
  - apply Htext; reflexivity.
  - exact Hcalls.
Defined.

(** With assertions enabled, what the two channel methods return has the
    class their annotations promise: a channel returned by fetch_channel() is
    a text channel, a channel returned by get_channel() is a guild text or
    news channel, and get_channel() returns None only for an app without a
    cache, after no call at all. *)
Theorem returned_channels_are_typed `{HikariObjects}
    (self : CommandInteraction.t) (world : Collaborators) (log : list Logged) :
  (forall channel log',
     run true world (fetch_channel self) log = (Returned channel, log') ->
     isinstance_TextChannel channel = true)
  /\ (forall channel log',
        run true world (get_channel self) log = (Returned (Some channel), log') ->
        isinstance_GuildTextChannel channel || isinstance_GuildNewsChannel channel = true)
  /\ (forall log',
        run true world (get_channel self) log = (Returned None, log') ->
        isinstance_CacheAware (CommandInteraction.app self) = false /\ log' = log).
Proof.
  split; [|split].
  - intros channel log'. unfold fetch_channel; simpl.
    destruct (world log Channel _) as [ch|e]; [|discriminate].
    destruct (isinstance_TextChannel ch) eqn:Hkind; simpl; [|discriminate].
    intros Hrun. injection Hrun as -> _. exact Hkind.
  - intros channel log'. unfold get_channel.
    destruct (isinstance_CacheAware (CommandInteraction.app self)); simpl;
      [|discriminate].
    destruct (world log (option Channel) _) as [ch|e]; [|discriminate].
    destruct (isinstance_guild_text_or_news ch) eqn:Hkind; simpl; [|discriminate].
    intros Hrun. injection Hrun as -> _. exact Hkind.
  - intros log'. unfold get_channel.
    destruct (isinstance_CacheAware (CommandInteraction.app self)); simpl.
    + destruct (world log (option Channel) _) as [ch|e]; [|discriminate].
      destruct (isinstance_guild_text_or_news ch) eqn:Hkind; simpl; [|discriminate].
      intros Hrun. injection Hrun as -> _. discriminate.
    + intros Hrun. injection Hrun as <-. split; reflexivity.
Qed.

(** The channel of [test_get_channel] and the app of
    [test_get_channel_without_cache]. *)
Lemma returned_channels_are_typed_witness :
  isinstance_GuildTextChannel Mock_GuildTextChannel
    || isinstance_GuildNewsChannel Mock_GuildTextChannel = true
  /\ isinstance_CacheAware
       (CommandInteraction.app (with_app mock_rest_only_app mock_command_interaction))
     = false.
Proof.
  split.
  - destruct (returned_channels_are_typed mock_command_interaction
                (mock_world (Some Mock_GuildTextChannel)) []) as [_ [Hget _]].
    apply (Hget Mock_GuildTextChannel [Log (cache_get_guild_channel 3123123)]).
    reflexivity.
  - destruct (returned_channels_are_typed
                (with_app mock_rest_only_app mock_command_interaction)
                (mock_world None) []) as [_ [_ Hnone]].
    destruct (Hnone [] eq_refl) as [Happ _]. exact Happ.
Defined.

(** The assert statements of fetch_channel() and get_channel() only ever turn
    a return into an AssertionError: with assertions disabled each method
    returns the collaborator's answer as it is, and with any setting the method
    either behaves as with assertions disabled or raises AssertionError after
    the same calls. *)
Theorem assertions_only_reject `{HikariObjects}
    (self : CommandInteraction.t) (debug : bool) (world : Collaborators)
    (log : list Logged) :
  let unchecked_fetch := run false world (fetch_channel self) log in
  let unchecked_get := run false world (get_channel self) log in
  unchecked_fetch
    = forwarded world (rest_fetch_channel (CommandInteraction.channel_id self)) log
  /\ unchecked_get
    = (if isinstance_CacheAware (CommandInteraction.app self)
       then forwarded world
              (cache_get_guild_channel (CommandInteraction.channel_id self)) log
       else (Returned None, log))
  /\ (run debug world (fetch_channel self) log = unchecked_fetch
      \/ run debug world (fetch_channel self) log
         = (Raised AssertionError, snd unchecked_fetch))
  /\ (run debug world (get_channel self) log = unchecked_get
      \/ run debug world (get_channel self) log
         = (Raised AssertionError, snd unchecked_get)).
Proof.
  intros unchecked_fetch unchecked_get; subst unchecked_fetch unchecked_get.
  unfold fetch_channel, get_channel, forwarded.
  destruct (isinstance_CacheAware (CommandInteraction.app self)); simpl.
  - destruct (world log Channel _) as [ch|e];
      destruct (world log (option Channel) _) as [ch'|e']; simpl;
      repeat split;
      try (destruct (debug && negb (isinstance_TextChannel ch)); simpl; tauto);
      try (destruct (debug && negb (isinstance_guild_text_or_news ch')); simpl; tauto);
      tauto.
  - destruct (world log Channel _) as [ch|e]; simpl;
      repeat split;
      try (destruct (debug && negb (isinstance_TextChannel ch)); simpl; tauto);
      tauto.
Qed.

(** ** Guild scoping *)

(** The module scopes a request in two ways, [... if self.guild_id is None
    else self.guild_id] in Command and [self.guild_id or UNDEFINED] in
    CommandInteraction: they yield the same argument for every guild_id but 0,
    where the first sends 0 and the second UNDEFINED; neither ever sends the
    raw None. *)
Theorem scoping_idioms_differ_only_at_zero (guild_id : option Snowflake) :
  (or_UNDEFINED guild_id = UNDEFINED_if_None guild_id <-> guild_id <> Some 0)
  /\ or_UNDEFINED (Some 0) = UNDEFINED
  /\ UNDEFINED_if_None (Some 0) = Value 0
  /\ or_UNDEFINED guild_id <> NONE
  /\ UNDEFINED_if_None guild_id <> NONE.
Proof.
  split; [|split; [reflexivity|split; [reflexivity|split]]].
  - destruct guild_id as [g|]; unfold or_UNDEFINED; simpl.
    + destruct (Z.eqb_spec g 0) as [->|Hne]; simpl.
      * split; [discriminate | intros H; contradiction H; reflexivity].
      * split; [intros _ Heq; injection Heq as Hzero; contradiction | reflexivity].
    + split; [discriminate | reflexivity].
  - destruct guild_id as [g|]; unfold or_UNDEFINED; simpl; [|discriminate].
    destruct (Z.eqb g 0); discriminate.
  - apply UNDEFINED_if_None_not_NONE.
Qed.

(** For every interaction, fetch_command() makes exactly one call, REST
    fetch_application_command with the interaction's application_id and id,
    and returns its outcome unchanged; the guild argument is guild_id when it
    is present and not 0, and UNDEFINED when guild_id is None or 0. *)
Theorem fetch_command_guild_scope `{HikariObjects}
    (self : CommandInteraction.t) (debug : bool) (world : Collaborators)
    (log : list Logged) :
  let request :=
    rest_fetch_application_command
      (CommandInteraction.application_id self) (CommandInteraction.id self) in
  (forall g, CommandInteraction.guild_id self = Some g -> g <> 0 ->
     run debug world (fetch_command self) log = forwarded world (request (Value g)) log)
  /\ (CommandInteraction.guild_id self = None \/ CommandInteraction.guild_id self = Some 0 ->
      run debug world (fetch_command self) log = forwarded world (request UNDEFINED) log).
Proof.
  intros request; subst request. split.
  - intros g Hg Hnonzero. rewrite fetch_command_forwards, Hg.
    unfold or_UNDEFINED. rewrite (truthy_nonzero g Hnonzero). reflexivity.
  - intros Hfalsy. apply truthy_false in Hfalsy.
    rewrite fetch_command_forwards. unfold or_UNDEFINED. rewrite Hfalsy. reflexivity.
Qed.

(** [test_fetch_command_for_guild_command] and
    [test_fetch_command_for_dm_command]. *)
Lemma fetch_command_guild_scope_witness :
  run true (mock_world None)
    (fetch_command (with_guild_id (Some 342123) mock_command_interaction)) []
  = (Returned return_value_command,
     [Log (rest_fetch_application_command 43123 2312312 (Value 342123))])
  /\ run true (mock_world None)
       (fetch_command (with_guild_id None mock_command_interaction)) []
  = (Returned return_value_command,
     [Log (rest_fetch_application_command 43123 2312312 UNDEFINED)]).
Proof.
  split.
  - destruct (fetch_command_guild_scope
                (with_guild_id (Some 342123) mock_command_interaction)
                true (mock_world None) []) as [Hguild _].
    rewrite (Hguild 342123 eq_refl ltac:(discriminate)). reflexivity.
  - destruct (fetch_command_guild_scope
                (with_guild_id None mock_command_interaction)
                true (mock_world None) []) as [_ Hdm].
    rewrite (Hdm (or_introl eq_refl)). reflexivity.
Defined.

(** ** Which collaborator a method talks to *)

(** For every interaction and whatever the collaborators answer,
    fetch_channel(), fetch_command() and fetch_guild() make at most one call
    and never read the cache, and get_guild() makes at most one call and never
    calls the REST client. *)
Theorem methods_keep_to_their_collaborator `{HikariObjects}
    (self : CommandInteraction.t) (debug : bool) (world : Collaborators)
    (log : list Logged) :
  let only (kind : Logged -> bool) {A : Type} (method : Prog A) : Prop :=
    exists calls,
      snd (run debug world method log) = log ++ calls
      /\ (length calls <= 1)%nat
      /\ forallb kind calls = true in
  only is_rest_call (fetch_channel self)
  /\ only is_rest_call (fetch_command self)
  /\ only is_rest_call (fetch_guild self)
  /\ only is_cache_call (get_guild self).
Proof.
  intros only; subst only; cbv beta.
  split; [|split; [|split]].
  - exists [Log (rest_fetch_channel (CommandInteraction.channel_id self))].
    split; [|split; [simpl; lia | reflexivity]].
    unfold fetch_channel; simpl.
    destruct (world log Channel _) as [ch|e]; [|reflexivity].
    destruct (debug && negb (isinstance_TextChannel ch)); reflexivity.
  - rewrite fetch_command_forwards. eexists. split; [reflexivity|].
    split; [simpl; lia | reflexivity].
  - unfold fetch_guild.
    destruct (truthy (CommandInteraction.guild_id self)); simpl.
    + destruct (CommandInteraction.guild_id self) as [g|]; simpl.
      * exists [Log (rest_fetch_guild g)].
        split; [|split; [simpl; lia | reflexivity]].
        destruct (world log RESTGuild (rest_fetch_guild g)); reflexivity.
      * exists []. rewrite app_nil_r. split; [reflexivity|].
        split; [simpl; lia | reflexivity].
    + exists []. rewrite app_nil_r. split; [reflexivity|].
      split; [simpl; lia | reflexivity].
  - unfold get_guild.
    destruct (truthy (CommandInteraction.guild_id self)
              && isinstance_CacheAware (CommandInteraction.app self)); simpl.
    + destruct (CommandInteraction.guild_id self) as [g|]; simpl.
      * exists [Log (cache_get_guild g)].
        split; [|split; [simpl; lia | reflexivity]].
        destruct (world log (option GatewayGuild) (cache_get_guild g)); reflexivity.
      * exists []. rewrite app_nil_r. split; [reflexivity|].
        split; [simpl; lia | reflexivity].
    + exists []. rewrite app_nil_r. split; [reflexivity|].
      split; [simpl; lia | reflexivity].
Qed.

(** ** OptionType *)

(** The nine members of OptionType carry pairwise distinct wire values, the
    values are exactly the integers 1 to 9, and the sub command test on a
    member's value holds for SUB_COMMAND and SUB_COMMAND_GROUP alone. *)
Theorem OptionType_values_are_one_to_nine :
  (forall t u : OptionType, OptionType_value t = OptionType_value u -> t = u)
  /\ (forall z : Z, (exists t : OptionType, OptionType_value t = z) <-> 1 <= z <= 9)
  /\ (forall t : OptionType,
        is_sub_command_type t = true <-> t = SUB_COMMAND \/ t = SUB_COMMAND_GROUP).
Proof.
  split; [|split].
  - intros [] []; simpl; intros Heq; first [reflexivity | discriminate Heq].
  - intros z. split.
    + intros [[] <-]; simpl; lia.
    + intros Hrange.
      assert (z = 1 \/ z = 2 \/ z = 3 \/ z = 4 \/ z = 5 \/ z = 6 \/ z = 7
              \/ z = 8 \/ z = 9) as Hcases by lia.
      destruct Hcases as [->|[->|[->|[->|[->|[->|[->|[->| ->]]]]]]]].
      * exists SUB_COMMAND. reflexivity.
      * exists SUB_COMMAND_GROUP. reflexivity.
      * exists STRING. reflexivity.
      * exists INTEGER. reflexivity.
      * exists BOOLEAN. reflexivity.
      * exists USER. reflexivity.
      * exists CHANNEL. reflexivity.
      * exists ROLE. reflexivity.
      * exists MENTIONABLE. reflexivity.
  - intros []; simpl; split;
      first [ intros _; (left; reflexivity) || (right; reflexivity)
            | discriminate
            | intros [Heq|Heq]; discriminate Heq
            | reflexivity ].
Qed.

(** ** Equality of commands *)

(** Equality of commands is an equivalence that looks at id alone: a command
    stays equal to itself when it is moved to another guild or made global,
    although fetch_self() then asks the REST client for another scope, so
    equal commands need not make the same request. *)
Theorem Command_eq_ignores_scope `{HikariObjects}
    (a b c : Command.t) (guild_id : option Snowflake)
    (debug : bool) (world : Collaborators) (log : list Logged) :
  Command_eq a a = true
  /\ Command_eq a b = Command_eq b a
  /\ (Command_eq a b = true -> Command_eq b c = true -> Command_eq a c = true)
  /\ Command_eq a (command_with_guild_id guild_id a) = true
  /\ (guild_id <> Command.guild_id a ->
      snd (run debug world (fetch_self a) log)
      <> snd (run debug world (fetch_self (command_with_guild_id guild_id a)) log)).
Proof.
  unfold Command_eq.
  split; [apply Z.eqb_refl|].
  split; [apply Z.eqb_sym|].
  split.
  { rewrite !Z.eqb_eq. congruence. }
  split; [apply Z.eqb_refl|].
  intros Hscope. unfold fetch_self. rewrite !run_Invoke_Return.
  unfold forwarded; simpl.
  intros Heq. apply app_inv_head in Heq.
  apply (f_equal
           (fun calls : list Logged =>
              match calls with
              | [Log (rest_fetch_application_command _ _ guild)] => Some guild
              | _ => None
              end)) in Heq.
  simpl in Heq. apply Hscope.
  destruct guild_id as [g|], (Command.guild_id a) as [g'|]; simpl in Heq;
    congruence.
Qed.

(** The fixture command, guild scoped, and the same command made global. *)
Lemma Command_eq_ignores_scope_witness :
  Command_eq mock_command (command_with_guild_id None mock_command) = true
  /\ snd (run true (mock_world None) (fetch_self mock_command) [])
     <> snd (run true (mock_world None)
               (fetch_self (command_with_guild_id None mock_command)) []).
Proof.
  destruct (Command_eq_ignores_scope mock_command mock_command mock_command None
              true (mock_world None) []) as [_ [_ [_ [Hequal Hrequests]]]].
  split; [exact Hequal|].
  apply Hrequests. discriminate.
Defined.

(** ** One method on the result of another *)

Lemma run_Prog_bind `{HikariObjects} {A B : Type} (debug : bool) (world : Collaborators)
    (first : Prog A) (second : A -> Prog B) (log : list Logged) :
  run debug world (Prog_bind first second) log
  = match run debug world first log with
    | (Returned a, log') => run debug world (second a) log'
    | (Raised e, log') => (Raised e, log')
    end.
Proof.
  revert log. induction first as [a|cond k IHk|X c k IHk]; intros log; simpl.
  - reflexivity.
  - destruct (debug && negb cond); [reflexivity | apply IHk].
  - destruct (world log X c) as [x|e]; [apply IHk | reflexivity].
Qed.

(** Deleting the command that fetch_command() returned makes two REST calls
    in this order: the fetch, then delete_application_command with the
    application_id, id and scope of the returned command, whatever the
    interaction's own ids are; when the fetch raises, the error is raised and
    nothing is deleted. *)
Theorem delete_after_fetch_command `{HikariObjects}
    (self : CommandInteraction.t) (debug : bool) (world : Collaborators)
    (log : list Logged) :
  let fetch :=
    rest_fetch_application_command
      (CommandInteraction.application_id self) (CommandInteraction.id self)
      (or_UNDEFINED (CommandInteraction.guild_id self)) in
  let result := run debug world (Prog_bind (fetch_command self) delete) log in
  (forall fetched,
     world log _ fetch = Returned fetched ->
     result
     = forwarded world
         (rest_delete_application_command
            (Command.application_id fetched) (Command.id fetched)
            (UNDEFINED_if_None (Command.guild_id fetched)))
         (log ++ [Log fetch]))
  /\ (forall e, world log _ fetch = Raised e -> result = (Raised e, log ++ [Log fetch])).
Proof.
  intros fetch result; subst result fetch.
  rewrite run_Prog_bind, fetch_command_forwards. unfold forwarded.
  split.
  - intros fetched ->. unfold delete. apply run_Invoke_unit.
  - intros e ->. reflexivity.
Qed.

(** The fixture interaction: the mocked client returns a global command
    with id 1, and that command is what gets deleted. *)
Lemma delete_after_fetch_command_witness :
  run true (mock_world None)
    (Prog_bind (fetch_command mock_command_interaction) delete) []
  = (Returned tt,
     [Log (rest_fetch_application_command 43123 2312312 (Value 5412231));
      Log (rest_delete_application_command 1 1 UNDEFINED)]).
Proof.
  destruct (delete_after_fetch_command mock_command_interaction true
              (mock_world None) []) as [Hfetched _].
  rewrite (Hfetched return_value_command eq_refl). reflexivity.
Defined.
